(** * ParaSwap SDK: the adapter registry and the legacy [ParaSwap] facade

    A shallow embedding of [src/lib/dexs/index.ts] (the [DEXS] table) and of
    the [ParaSwap] class (construction, forwarding methods, error
    normalisation), with the properties the specification states about them. *)

From Stdlib Require Import ZArith String List Bool Lia.
From Stdlib Require Import DecimalString.
From stdpp Require Import base option strings gmap.

Local Open Scope string_scope.
Local Open Scope Z_scope.

(** ** JavaScript values

    The fragment of the value space that the facade inspects: the primitives
    and objects.  An object lists the properties a read can see, in insertion
    order, together with the text its conversion to a string yields
    ([[object Object]] for an object literal, [Error: boom] for an [Error]),
    or [None] when it has no string form (an object created with a null
    prototype, or one whose [toString] and [valueOf] give no primitive): the
    conversion then throws a [TypeError].  A symbol has no string form
    either.  Numbers are the safe integers, the ones a double holds exactly
    and prints digit by digit; fractions, [NaN], the infinities and larger
    magnitudes are left out, as are functions and objects whose own
    conversion code throws something of its own. *)

Definition MAX_SAFE_INTEGER : Z := 9007199254740991.

Record SafeInteger : Type := {
  int_value : Z;
  int_safe : Is_true (Z.abs int_value <=? MAX_SAFE_INTEGER);
}.

#[warnings="-register-all"]
Inductive JSValue : Type :=
| JUndefined
| JNull
| JBool (b : bool)
| JNumber (n : SafeInteger)
| JString (s : string)
| JSymbol (description : string)
| JObject (repr : option string) (props : list (string * JSValue)).

(** The number literal [n]. *)
Abbreviation JInt n := (JNumber {| int_value := n; int_safe := I |}).

(** What the facade can throw by itself: a failed [assert] of ts-essentials
    (carrying the message handed to it) and the [TypeError] of a property
    read on [null] or [undefined] or of a conversion to a string that has
    none. *)
Inductive Exn : Type :=
| AssertionError (msg : string)
| TypeError.

(** The completion of an evaluation: a value, or an exception. *)
Inductive Completion (A : Type) : Type :=
| Normal (a : A)
| Throw (x : Exn).
Arguments Normal {A} a.
Arguments Throw {A} x.

Definition cbind {A B} (c : Completion A) (k : A -> Completion B) : Completion B :=
  match c with
  | Normal a => k a
  | Throw x => Throw x
  end.

Notation "'let?' x ':=' c 'in' k" := (cbind c (fun x => k))
  (at level 10, x name, c at level 100, k at level 200).

(** An object literal [{ k1: v1, ... }]. *)
Definition object (props : list (string * JSValue)) : JSValue :=
  JObject (Some "[object Object]") props.

Fixpoint own (k : string) (props : list (string * JSValue)) : option JSValue :=
  match props with
  | [] => None
  | (k', v) :: rest => if String.eqb k k' then Some v else own k rest
  end.

(** [v.k] for the property names the facade reads ([response], [message],
    [status], [data], [error]): none of them is defined by a built-in
    prototype, so a primitive yields [undefined]; [null] and [undefined]
    have no properties at all. *)
Definition get (v : JSValue) (k : string) : Completion JSValue :=
  match v with
  | JUndefined | JNull => Throw TypeError
  | JObject _ props => Normal (default JUndefined (own k props))
  | _ => Normal JUndefined
  end.

(** ToBoolean. *)
Definition truthy (v : JSValue) : bool :=
  match v with
  | JUndefined | JNull => false
  | JBool b => b
  | JNumber n => negb (int_value n =? 0)
  | JString s => negb (String.eqb s "")
  | JSymbol _ => true
  | JObject _ _ => true
  end.

(** ToString, as a template literal applies it: it throws a [TypeError] for
    a symbol and for an object that has no string form. *)
Definition ToString (v : JSValue) : Completion string :=
  match v with
  | JUndefined => Normal "undefined"
  | JNull => Normal "null"
  | JBool true => Normal "true"
  | JBool false => Normal "false"
  | JNumber n => Normal (NilZero.string_of_int (Z.to_int (int_value n)))
  | JString s => Normal s
  | JSymbol _ => Throw TypeError
  | JObject (Some repr) _ => Normal repr
  | JObject None _ => Throw TypeError
  end.

(** [axios.isAxiosError(payload)]: an object whose [isAxiosError] is [true]. *)
Definition isAxiosError (payload : JSValue) : bool :=
  match payload with
  | JObject _ props =>
      match own "isAxiosError" props with
      | Some (JBool true) => true
      | _ => false
      end
  | _ => false
  end.

(** ** Error normalisation: [ParaSwap.handleAPIError] *)

Definition handleAPIError (e : JSValue) : Completion JSValue :=
  if negb (isAxiosError e) then
    let? text := ToString e in
    Normal (object [("message", JString ("Unknown error: " ++ text))])
  else
    let? response := get e "response" in
    if negb (truthy response) then
      let? message := get e "message" in
      Normal (object [("message", message)])
    else
      let? status := get response "status" in
      let? data := get response "data" in
      let? error := get data "error" in
      Normal (object [("status", status); ("message", error); ("data", data)]).

(** ** The adapter registry: [DEXS]

    [DEXS] is an object literal used as a table.  A read [o[k]] of an object
    literal finds a property of its own, or else a member it inherits from
    [Object.prototype], or nothing. *)

Record ObjectLiteral (V : Type) : Type := literal {
  properties : gmap string V;
}.
Arguments literal {V} properties.
Arguments properties {V} o.

(** The names [Object.prototype] defines. *)
Definition Object_prototype : list string :=
  ["constructor"; "__defineGetter__"; "__defineSetter__"; "hasOwnProperty";
   "__lookupGetter__"; "__lookupSetter__"; "isPrototypeOf"; "propertyIsEnumerable";
   "toString"; "valueOf"; "__proto__"; "toLocaleString"].

(** What a read finds: a value of the table, or the inherited member of
    that name. *)
Inductive Property (V : Type) : Type :=
| Own (v : V)
| Inherited (name : string).
Arguments Own {V} v.
Arguments Inherited {V} name.

(** [o[k]]; [None] is [undefined]. *)
Definition read {V} (o : ObjectLiteral V) (k : string) : option (Property V) :=
  match properties o !! k with
  | Some v => Some (Own v)
  | None => if decide (k ∈ Object_prototype) then Some (Inherited k) else None
  end.

Section Registry.

(** The adapter classes, and the two the table imports, each from a module
    of its own ([./uniswap-v1], [./uniswap-v2]). *)
Context {Adapter : Type}.
Variables UniswapV1 UniswapV2 : Adapter.

Definition DEXS : ObjectLiteral Adapter :=
  literal
    (list_to_map
       [("uniswap", UniswapV1);
        ("uniswapv2", UniswapV2);
        ("sushiswap", UniswapV2);
        ("defiswap", UniswapV2);
        ("linkswap", UniswapV2)]).

End Registry.

(** ** The facade's data *)

Definition Address := string.
Definition AddressOrSymbol := string.
Definition PriceString := string.

(** [RateOptions], [BuildOptions], [OptimalRate] and [SendOptions] are object
    types declared outside this file; the facade only passes them on. *)
Definition RateOptions := JSValue.
Definition BuildOptions := JSValue.
Definition OptimalRate := JSValue.
Definition SendOptions := JSValue.

Inductive SwapSide : Type :=
| SELL
| BUY.

(** The argument of [sdk.getAdapters]. *)
Record AdaptersOptions : Type := {
  ao_type : string;
  ao_namesOnly : option bool;
}.

(** The argument of [sdk.getRateByRoute]. *)
Record RateByRouteInput : Type := {
  rr_route : list AddressOrSymbol;
  rr_amount : PriceString;
  rr_userAddress : option Address;
  rr_side : SwapSide;
  rr_options : option RateOptions;
  rr_srcDecimals : option Z;
  rr_destDecimals : option Z;
}.

(** The argument of [sdk.getRate]. *)
Record RateInput : Type := {
  r_srcToken : AddressOrSymbol;
  r_destToken : AddressOrSymbol;
  r_amount : PriceString;
  r_userAddress : option Address;
  r_side : SwapSide;
  r_options : RateOptions;
  r_srcDecimals : option Z;
  r_destDecimals : option Z;
}.

(** The first argument of [sdk.buildTx]. *)
Record BuildTxInput : Type := {
  tx_srcToken : Address;
  tx_destToken : Address;
  tx_srcAmount : PriceString;
  tx_destAmount : PriceString;
  tx_priceRoute : OptimalRate;
  tx_userAddress : Address;
  tx_partner : option string;
  tx_partnerAddress : option string;
  tx_partnerFeeBps : option Z;
  tx_receiver : option Address;
  tx_srcDecimals : option Z;
  tx_destDecimals : option Z;
  tx_permit : option string;
  tx_deadline : option string;
}.

(** One application of a function of the internal sdk object: which one,
    and to which arguments. *)
Inductive Invocation : Type :=
| sdk_getTokens
| sdk_getAdapters (options : AdaptersOptions)
| sdk_getRateByRoute (input : RateByRouteInput)
| sdk_getRate (input : RateInput)
| sdk_buildTx (input : BuildTxInput) (options : BuildOptions)
| sdk_getSpender
| sdk_getAllowances (userAddress : Address) (tokenAddresses : list Address)
| sdk_getAllowance (userAddress : Address) (tokenAddress : Address)
| sdk_approveTokenBulk (amount : PriceString) (tokenAddresses : list Address)
| sdk_approveToken (amount : PriceString) (tokenAddress : Address)
| sdk_getBalance (userAddress : Address) (token : AddressOrSymbol)
| sdk_getBalances (userAddress : Address).

(** How the promise of a delegated call settles. *)
Inductive Outcome : Type :=
| Resolved (v : JSValue)
| Rejected (e : JSValue).

Definition API_URL : string := "https://apiv5.paraswap.io".

Section Facade.

(** The collaborators' own types (the axios module, the [fetch] function, a
    Web3 instance, an ethers provider) and the state of everything outside
    the process (the pricing service, the chain). *)
Context {AxiosStatic Fetch Web3 BaseProvider World : Type}.

(** Modelled from the spec: the two helpers that wrap a transport into a
    fetcher ([./helpers] is not among the sources); a fetcher remembers the
    transport it was built from. *)
Inductive FetcherFunction : Type :=
| constructAxiosFetcher (axios : AxiosStatic)
| constructFetchFetcher (fetch : Fetch).

(** Modelled from the spec: the two helpers that wrap a provider into a
    contract-calling backend ([./helpers] is not among the sources). *)
Inductive ContractCallerFunctions : Type :=
| constructEthersContractCaller (ethersProvider : BaseProvider)
| constructWeb3ContractCaller (web3Provider : Web3).

(** The object the sdk constructors receive:
    [{ fetcher, apiURL, network }], with [contractCaller] for [constructSDK]. *)
Record ConstructInput : Type := {
  ci_fetcher : FetcherFunction;
  ci_contractCaller : option ContractCallerFunctions;
  ci_apiURL : string;
  ci_network : Z;
}.

(** A function of the sdk object: applied to its arguments it acts on the
    outside world and its promise settles (a call that never settles is not
    modelled). *)
Definition Method : Type := Invocation -> World -> Outcome * World.

(** The process state a facade method runs in: the outside world, and the
    record of the delegated calls made so far with how each settled. *)
Record State : Type := {
  world : World;
  calls : list (Invocation * Outcome);
}.

(** An async method: from a state to the settled promise (a value it
    resolves to, or the exception it rejects with) and the state after. *)
Definition Async (A : Type) : Type := State -> Completion A * State.

(** The truth value of an optional argument or member: an object or a
    function when present, [undefined] when not. *)
Definition supplied {A} (o : option A) : bool :=
  match o with
  | Some _ => true
  | None => false
  end.

(** [assert(condition, msg)] of ts-essentials on an optional member. *)
Definition assert {A} (condition : option A) (msg : string) : Completion A :=
  match condition with
  | Some a => Normal a
  | None => Throw (AssertionError msg)
  end.

(** [await m(args)]: the call is made and recorded. *)
Definition await (m : Method) (i : Invocation) (st : State) : Outcome * State :=
  let '(o, w) := m i (world st) in
  (o, {| world := w; calls := (calls st ++ [(i, o)])%list |}).

(** [try { return await ...; } catch (e) { return handler(e); }] *)
Definition try_catch (body : State -> Outcome * State)
    (handler : JSValue -> Completion JSValue) : Async JSValue :=
  fun st =>
    let '(o, st') := body st in
    match o with
    | Resolved v => (Normal v, st')
    | Rejected e => (handler e, st')
    end.

(** [assert(member, msg); rest] at the head of an async method. *)
Definition asserting {A B} (condition : option A) (msg : string)
    (rest : A -> Async B) : Async B :=
  fun st =>
    match assert condition msg with
    | Normal a => rest a st
    | Throw x => (Throw x, st)
    end.

(** The class [ParaSwap]: its fields. *)
Record ParaSwap : Type := {
  network : Z;
  apiURL : string;
  web3Provider : option Web3;
  ethersProvider : option BaseProvider;
  sdk : gmap string Method;
}.

(** The functions the class imports from [./index] to build its sdk object.
    Their code is not part of this file; the constructor is stated over any
    implementation of them. *)
Class SDKConstructors : Type := {
  constructGetBalances : ConstructInput -> gmap string Method;
  constructGetTokens : ConstructInput -> gmap string Method;
  constructGetSpender : ConstructInput -> gmap string Method;
  constructBuildTx : ConstructInput -> gmap string Method;
  constructGetAdapters : ConstructInput -> gmap string Method;
  constructGetRate : ConstructInput -> gmap string Method;
  constructPartialSDK :
    ConstructInput -> list (ConstructInput -> gmap string Method) -> gmap string Method;
  constructSDK : ConstructInput -> gmap string Method;
}.

Context {constructors : SDKConstructors}.

(** [this.sdk = sdk] *)
Definition set_sdk (this : ParaSwap) (sdk : gmap string Method) : ParaSwap :=
  {| network := network this; apiURL := apiURL this;
     web3Provider := web3Provider this; ethersProvider := ethersProvider this;
     sdk := sdk |}.

(** [new ParaSwap(network, apiURL, web3Provider, ethersProvider, axios, fetch)];
    an argument left out is [None]. *)
Definition constructor (network : option Z) (apiURL : option string)
    (web3Provider : option Web3) (ethersProvider : option BaseProvider)
    (axios : option AxiosStatic) (fetch : option Fetch) : Completion ParaSwap :=
  let network := default 1 network in
  let apiURL := default API_URL apiURL in
  let this := {| network := network; apiURL := apiURL;
                 web3Provider := web3Provider; ethersProvider := ethersProvider;
                 sdk := ∅ |} in
  let fetcher :=
    match axios with
    | Some axios => Some (constructAxiosFetcher axios)
    | None =>
        match fetch with
        | Some fetch => Some (constructFetchFetcher fetch)
        | None => None
        end
    end in
  let? fetcher := assert fetcher "at least one fetcher is needed" in
  if negb (supplied web3Provider) && negb (supplied ethersProvider) then
    Normal (set_sdk this
              (constructPartialSDK
                 {| ci_fetcher := fetcher; ci_contractCaller := None;
                    ci_apiURL := apiURL; ci_network := network |}
                 [constructGetBalances; constructGetTokens; constructGetSpender;
                  constructBuildTx; constructGetAdapters; constructGetRate]))
  else
    let contractCaller :=
      match ethersProvider with
      | Some ethersProvider => Some (constructEthersContractCaller ethersProvider)
      | None =>
          match web3Provider with
          | Some web3Provider => Some (constructWeb3ContractCaller web3Provider)
          | None => None
          end
      end in
    match contractCaller with
    | Some contractCaller =>
        Normal (set_sdk this
                  (constructSDK
                     {| ci_fetcher := fetcher; ci_contractCaller := Some contractCaller;
                        ci_apiURL := apiURL; ci_network := network |}))
    | None => Normal this
    end.

(** *** The methods of the class *)

(** [setWeb3Provider] is the one method that returns the instance itself, so
    it is stated over references: [this] is the address of the instance in
    the store of objects; the result is the reference returned and the store
    after the call. *)
Definition setWeb3Provider (this : nat) (web3Provider : JSValue)
    (heap : gmap nat ParaSwap) : nat * gmap nat ParaSwap :=
  (this, heap).

Definition getTokens (this : ParaSwap) : Async JSValue :=
  asserting (sdk this !! "getTokens") "sdk must be initialized with a fetcher" (fun getTokens =>
  try_catch (await getTokens sdk_getTokens) handleAPIError).

Definition getAdapters (this : ParaSwap) : Async JSValue :=
  asserting (sdk this !! "getAdapters") "sdk must be initialized with a fetcher" (fun getAdapters =>
  try_catch
    (await getAdapters (sdk_getAdapters {| ao_type := "object"; ao_namesOnly := None |}))
    handleAPIError).

Definition getRateByRoute (this : ParaSwap) (route : list AddressOrSymbol)
    (amount : PriceString) (userAddress : option Address) (side : option SwapSide)
    (options : option RateOptions) (srcDecimals destDecimals : option Z) : Async JSValue :=
  let side := default SELL side in
  asserting (sdk this !! "getRateByRoute") "sdk must be initialized with a fetcher"
    (fun getRateByRoute =>
  if (length route <? 2)%nat then
    fun st => (Normal (object [("message", JString "Invalid Route")]), st)
  else
    try_catch
      (await getRateByRoute
         (sdk_getRateByRoute
            {| rr_route := route; rr_amount := amount; rr_userAddress := userAddress;
               rr_side := side; rr_options := options;
               rr_srcDecimals := srcDecimals; rr_destDecimals := destDecimals |}))
      handleAPIError).

Definition getRate (this : ParaSwap) (srcToken destToken : AddressOrSymbol)
    (amount : PriceString) (userAddress : option Address) (side : option SwapSide)
    (options : option RateOptions) (srcDecimals destDecimals : option Z) : Async JSValue :=
  let side := default SELL side in
  let options := default (object []) options in
  asserting (sdk this !! "getRate") "sdk must be initialized with a fetcher" (fun getRate =>
  try_catch
    (await getRate
       (sdk_getRate
          {| r_srcToken := srcToken; r_destToken := destToken; r_amount := amount;
             r_userAddress := userAddress; r_side := side; r_options := options;
             r_srcDecimals := srcDecimals; r_destDecimals := destDecimals |}))
    handleAPIError).

Definition buildTx (this : ParaSwap) (srcToken destToken : Address)
    (srcAmount destAmount : PriceString) (priceRoute : OptimalRate) (userAddress : Address)
    (partner partnerAddress : option string) (partnerFeeBps : option Z)
    (receiver : option Address) (options : option BuildOptions)
    (srcDecimals destDecimals : option Z) (permit deadline : option string) : Async JSValue :=
  let options := default (object []) options in
  asserting (sdk this !! "buildTx") "sdk must be initialized with a fetcher" (fun buildTx =>
  try_catch
    (await buildTx
       (sdk_buildTx
          {| tx_srcToken := srcToken; tx_destToken := destToken;
             tx_srcAmount := srcAmount; tx_destAmount := destAmount;
             tx_priceRoute := priceRoute; tx_userAddress := userAddress;
             tx_partner := partner; tx_partnerAddress := partnerAddress;
             tx_partnerFeeBps := partnerFeeBps; tx_receiver := receiver;
             tx_srcDecimals := srcDecimals; tx_destDecimals := destDecimals;
             tx_permit := permit; tx_deadline := deadline |}
          options))
    handleAPIError).

Definition getTokenTransferProxy (this : ParaSwap) (_provider : option JSValue) : Async JSValue :=
  asserting (sdk this !! "getSpender") "sdk must be initialized with a fetcher" (fun getSpender =>
  try_catch (await getSpender sdk_getSpender) handleAPIError).

Definition getAllowances (this : ParaSwap) (userAddress : Address)
    (tokenAddresses : list Address) : Async JSValue :=
  asserting (sdk this !! "getAllowances") "sdk must be initialized with a fetcher"
    (fun getAllowances =>
  try_catch (await getAllowances (sdk_getAllowances userAddress tokenAddresses)) handleAPIError).

Definition getAllowance (this : ParaSwap) (userAddress tokenAddress : Address) : Async JSValue :=
  asserting (sdk this !! "getAllowance") "sdk must be initialized with a fetcher"
    (fun getAllowance =>
  try_catch (await getAllowance (sdk_getAllowance userAddress tokenAddress)) handleAPIError).

Definition approveTokenBulk (this : ParaSwap) (amount : PriceString) (userAddress : Address)
    (tokenAddresses : list Address) (_provider : option JSValue) : Async JSValue :=
  asserting (sdk this !! "approveTokenBulk") "sdk must be initialized with a provider"
    (fun approveTokenBulk =>
  try_catch (await approveTokenBulk (sdk_approveTokenBulk amount tokenAddresses)) handleAPIError).

Definition approveToken (this : ParaSwap) (amount : PriceString) (userAddress : Address)
    (tokenAddress : Address) (_provider : option JSValue)
    (sendOptions : option SendOptions) : Async JSValue :=
  asserting (sdk this !! "approveToken") "sdk must be initialized with a provider"
    (fun approveToken =>
  try_catch (await approveToken (sdk_approveToken amount tokenAddress)) handleAPIError).

Definition getMarketNames (this : ParaSwap) : Async JSValue :=
  asserting (sdk this !! "getAdapters") "sdk must be initialized with a fetcher" (fun getAdapters =>
  try_catch
    (await getAdapters (sdk_getAdapters {| ao_type := "list"; ao_namesOnly := Some true |}))
    handleAPIError).

Definition getBalance (this : ParaSwap) (userAddress : Address)
    (token : AddressOrSymbol) : Async JSValue :=
  asserting (sdk this !! "getBalance") "sdk must be initialized with a fetcher" (fun getBalance =>
  try_catch (await getBalance (sdk_getBalance userAddress token)) handleAPIError).

Definition getBalances (this : ParaSwap) (userAddress : Address) : Async JSValue :=
  asserting (sdk this !! "getBalances") "sdk must be initialized with a fetcher" (fun getBalances =>
  try_catch (await getBalances (sdk_getBalances userAddress)) handleAPIError).

(** *** The public surface as one type

    A request names an async method of the class together with its
    arguments; [perform] runs it on an instance. *)
Inductive Request : Type :=
| GetTokens
| GetAdapters
| GetRateByRoute (route : list AddressOrSymbol) (amount : PriceString)
    (userAddress : option Address) (side : option SwapSide) (options : option RateOptions)
    (srcDecimals destDecimals : option Z)
| GetRate (srcToken destToken : AddressOrSymbol) (amount : PriceString)
    (userAddress : option Address) (side : option SwapSide) (options : option RateOptions)
    (srcDecimals destDecimals : option Z)
| BuildTx (srcToken destToken : Address) (srcAmount destAmount : PriceString)
    (priceRoute : OptimalRate) (userAddress : Address)
    (partner partnerAddress : option string) (partnerFeeBps : option Z)
    (receiver : option Address) (options : option BuildOptions)
    (srcDecimals destDecimals : option Z) (permit deadline : option string)
| GetTokenTransferProxy (_provider : option JSValue)
| GetAllowances (userAddress : Address) (tokenAddresses : list Address)
| GetAllowance (userAddress tokenAddress : Address)
| ApproveTokenBulk (amount : PriceString) (userAddress : Address)
    (tokenAddresses : list Address) (_provider : option JSValue)
| ApproveToken (amount : PriceString) (userAddress tokenAddress : Address)
    (_provider : option JSValue) (sendOptions : option SendOptions)
| GetMarketNames
| GetBalance (userAddress : Address) (token : AddressOrSymbol)
| GetBalances (userAddress : Address).

Definition perform (this : ParaSwap) (req : Request) : Async JSValue :=
  match req with
  | GetTokens => getTokens this
  | GetAdapters => getAdapters this
  | GetRateByRoute route amount userAddress side options srcDecimals destDecimals =>
      getRateByRoute this route amount userAddress side options srcDecimals destDecimals
  | GetRate srcToken destToken amount userAddress side options srcDecimals destDecimals =>
      getRate this srcToken destToken amount userAddress side options srcDecimals destDecimals
  | BuildTx srcToken destToken srcAmount destAmount priceRoute userAddress partner
      partnerAddress partnerFeeBps receiver options srcDecimals destDecimals permit deadline =>
      buildTx this srcToken destToken srcAmount destAmount priceRoute userAddress partner
        partnerAddress partnerFeeBps receiver options srcDecimals destDecimals permit deadline
  | GetTokenTransferProxy _provider => getTokenTransferProxy this _provider
  | GetAllowances userAddress tokenAddresses => getAllowances this userAddress tokenAddresses
  | GetAllowance userAddress tokenAddress => getAllowance this userAddress tokenAddress
  | ApproveTokenBulk amount userAddress tokenAddresses _provider =>
      approveTokenBulk this amount userAddress tokenAddresses _provider
  | ApproveToken amount userAddress tokenAddress _provider sendOptions =>
      approveToken this amount userAddress tokenAddress _provider sendOptions
  | GetMarketNames => getMarketNames this
  | GetBalance userAddress token => getBalance this userAddress token
  | GetBalances userAddress => getBalances this userAddress
  end.

End Facade.

(** ** The sdk constructors, from the specification *)

Section Modelled.

Context {AxiosStatic Fetch Web3 BaseProvider World : Type}.

Abbreviation ConstructInput := (@ConstructInput AxiosStatic Fetch Web3 BaseProvider).
Abbreviation Method := (@Method World).

(** The outside world as the sdk functions reach it: what a function built
    over a given input does when applied. *)
Variable remote : ConstructInput -> Method.

(** Modelled from the spec: the six constructors of [./index] the class hands
    to [constructPartialSDK] (not among the sources), each giving the members
    the spec lists for it: balance queries, token listing, spender lookup,
    transaction building, adapter and market listing, rate queries.  The two
    allowance queries come with the balance queries: [getAllowances] and
    [getAllowance] assert their member with the message that names a
    fetcher, as every member built from a fetcher alone, where the two
    approvals name a provider. *)
Definition modelled_constructGetBalances (ci : ConstructInput) : gmap string Method :=
  list_to_map [("getBalances", remote ci); ("getBalance", remote ci);
               ("getAllowances", remote ci); ("getAllowance", remote ci)].
Definition modelled_constructGetTokens (ci : ConstructInput) : gmap string Method :=
  {[ "getTokens" := remote ci ]}.
Definition modelled_constructGetSpender (ci : ConstructInput) : gmap string Method :=
  {[ "getSpender" := remote ci ]}.
Definition modelled_constructBuildTx (ci : ConstructInput) : gmap string Method :=
  {[ "buildTx" := remote ci ]}.
Definition modelled_constructGetAdapters (ci : ConstructInput) : gmap string Method :=
  {[ "getAdapters" := remote ci ]}.
Definition modelled_constructGetRate (ci : ConstructInput) : gmap string Method :=
  list_to_map [("getRate", remote ci); ("getRateByRoute", remote ci)].

(** Modelled from the spec: [constructPartialSDK(config, ...constructors)]
    (not among the sources) merges what each constructor gives over the same
    config, a later one winning. *)
Definition modelled_constructPartialSDK (ci : ConstructInput)
    (constructors : list (ConstructInput -> gmap string Method)) : gmap string Method :=
  foldl (fun acc c => c ci ∪ acc) ∅ constructors.

(** Modelled from the spec: [constructSDK(config)] (not among the sources)
    gives the full set: what the six constructors give, plus the approvals,
    which need the contract caller. *)
Definition modelled_constructSDK (ci : ConstructInput) : gmap string Method :=
  list_to_map [("approveToken", remote ci); ("approveTokenBulk", remote ci)]
  ∪ modelled_constructPartialSDK ci
      [modelled_constructGetBalances; modelled_constructGetTokens;
       modelled_constructGetSpender; modelled_constructBuildTx;
       modelled_constructGetAdapters; modelled_constructGetRate].

Definition modelled : @SDKConstructors AxiosStatic Fetch Web3 BaseProvider World := {|
  constructGetBalances := modelled_constructGetBalances;
  constructGetTokens := modelled_constructGetTokens;
  constructGetSpender := modelled_constructGetSpender;
  constructBuildTx := modelled_constructBuildTx;
  constructGetAdapters := modelled_constructGetAdapters;
  constructGetRate := modelled_constructGetRate;
  constructPartialSDK := modelled_constructPartialSDK;
  constructSDK := modelled_constructSDK;
|}.

End Modelled.

(** ** Reading a value the way the specification words it *)

(** "The response's status code", "the response body's error field": the
    property when there is one, [undefined] otherwise. *)
Definition field (v : JSValue) (k : string) : JSValue :=
  match v with
  | JObject _ props => default JUndefined (own k props)
  | _ => JUndefined
  end.

Definition nullish (v : JSValue) : bool :=
  match v with
  | JUndefined | JNull => true
  | _ => false
  end.

(** "Prefer the promise-based HTTP transport if supplied, else the
    fetch-like transport if supplied." *)
Definition resolved_fetcher {AxiosStatic Fetch : Type}
    (axios : option AxiosStatic) (fetch : option Fetch)
    : option (@FetcherFunction AxiosStatic Fetch) :=
  match axios with
  | Some axios => Some (constructAxiosFetcher axios)
  | None => constructFetchFetcher <$> fetch
  end.

(** "Prefer the read-only chain-provider's contract-calling adapter if
    supplied, else the wallet-provider's, else none." *)
Definition resolved_caller {Web3 BaseProvider : Type}
    (web3Provider : option Web3) (ethersProvider : option BaseProvider)
    : option (@ContractCallerFunctions Web3 BaseProvider) :=
  match ethersProvider with
  | Some ethersProvider => Some (constructEthersContractCaller ethersProvider)
  | None => constructWeb3ContractCaller <$> web3Provider
  end.

(** The sdk object for a given input, as the specification assembles it: the
    read-only set when no contract-calling backend resolved, the full set
    when one did. *)
Definition assembled {AxiosStatic Fetch Web3 BaseProvider World : Type}
    {constructors : @SDKConstructors AxiosStatic Fetch Web3 BaseProvider World}
    (ci : ConstructInput) : gmap string Method :=
  match ci_contractCaller ci with
  | None =>
      constructPartialSDK ci
        [constructGetBalances; constructGetTokens; constructGetSpender;
         constructBuildTx; constructGetAdapters; constructGetRate]
  | Some _ => constructSDK ci
  end.

(** The two approvals. *)
Definition is_approval (req : Request) : bool :=
  match req with
  | ApproveTokenBulk _ _ _ _ | ApproveToken _ _ _ _ _ => true
  | _ => false
  end.

(** The member of the sdk object each operation asserts before it
    delegates. *)
Definition capability (req : Request) : string :=
  match req with
  | GetTokens => "getTokens"
  | GetAdapters | GetMarketNames => "getAdapters"
  | GetRateByRoute _ _ _ _ _ _ _ => "getRateByRoute"
  | GetRate _ _ _ _ _ _ _ _ => "getRate"
  | BuildTx _ _ _ _ _ _ _ _ _ _ _ _ _ _ _ => "buildTx"
  | GetTokenTransferProxy _ => "getSpender"
  | GetAllowances _ _ => "getAllowances"
  | GetAllowance _ _ => "getAllowance"
  | ApproveTokenBulk _ _ _ _ => "approveTokenBulk"
  | ApproveToken _ _ _ _ _ => "approveToken"
  | GetBalance _ _ => "getBalance"
  | GetBalances _ => "getBalances"
  end.

Definition READ_ONLY : gset string :=
  {[ "getBalances"; "getBalance"; "getTokens"; "getSpender"; "buildTx";
     "getAdapters"; "getRate"; "getRateByRoute" ]}.

Definition PROVIDER_BACKED : gset string :=
  {[ "getAllowances"; "getAllowance"; "approveToken"; "approveTokenBulk" ]}.

(** The members built from a fetcher alone: the read-only ones and the two
    allowance queries. *)
Definition FETCHER_BACKED : gset string :=
  READ_ONLY ∪ {[ "getAllowances"; "getAllowance" ]}.

(** ** Concrete scenarios

    Instances over one-point collaborator types, with a world that settles
    every delegated call the same way. *)

Definition settling (o : Outcome) : ConstructInput (AxiosStatic := unit) (Fetch := unit)
    (BaseProvider := unit) (Web3 := unit) -> Method (World := unit) :=
  fun _ _ w => (o, w).

Definition start : State (World := unit) := {| world := tt; calls := [] |}.

(** The instance [new ParaSwap(undefined, undefined, undefined, undefined, axios)]
    in a world that settles every call as [o]. *)
Definition client (o : Outcome) : ParaSwap (Web3 := unit) (BaseProvider := unit) (World := unit) :=
  {| network := 1; apiURL := API_URL; web3Provider := None; ethersProvider := None;
     sdk := modelled_constructPartialSDK
              {| ci_fetcher := constructAxiosFetcher tt; ci_contractCaller := None;
                 ci_apiURL := API_URL; ci_network := 1 |}
              [modelled_constructGetBalances (settling o); modelled_constructGetTokens (settling o);
               modelled_constructGetSpender (settling o); modelled_constructBuildTx (settling o);
               modelled_constructGetAdapters (settling o); modelled_constructGetRate (settling o)] |}.

(** A 400 answer of the pricing service. *)
Definition bad_request : JSValue :=
  JObject (Some "Error: Request failed with status code 400")
    [("message", JString "Request failed with status code 400");
     ("isAxiosError", JBool true);
     ("response", object [("status", JInt 400);
                          ("data", object [("error", JString "bad request")])])].

(** A network-level failure: no response at all. *)
Definition timeout : JSValue :=
  JObject (Some "Error: timeout")
    [("message", JString "timeout"); ("isAxiosError", JBool true)].

(** A 502 answered by a gateway in front of the service: the body is a page
    of text, not the service's JSON. *)
Definition bad_gateway : JSValue :=
  JObject (Some "Error: Request failed with status code 502")
    [("message", JString "Request failed with status code 502");
     ("isAxiosError", JBool true);
     ("response", object [("status", JInt 502);
                          ("data", JString "<html>502 Bad Gateway</html>")])].

(** A 500 whose JSON body is the literal [null]. *)
Definition null_body : JSValue :=
  JObject (Some "Error: Request failed with status code 500")
    [("message", JString "Request failed with status code 500");
     ("isAxiosError", JBool true);
     ("response", object [("status", JInt 500); ("data", JNull)])].

(** A rejection whose reason is a symbol. *)
Definition symbol_reason : JSValue := JSymbol "cancelled".

(** ** The forwarding pattern as a table

    What the thirteen async methods have in common, read off their bodies:
    the message of the capability assertion, whether the method can answer
    without delegating, and the arguments it hands to the sdk function. *)

Definition assertion_message (req : Request) : string :=
  match req with
  | ApproveTokenBulk _ _ _ _ | ApproveToken _ _ _ _ _ =>
      "sdk must be initialized with a provider"
  | _ => "sdk must be initialized with a fetcher"
  end.

Definition answers_locally (req : Request) : bool :=
  match req with
  | GetRateByRoute route _ _ _ _ _ _ => (length route <? 2)%nat
  | _ => false
  end.

Definition invocation (req : Request) : Invocation :=
  match req with
  | GetTokens => sdk_getTokens
  | GetAdapters => sdk_getAdapters {| ao_type := "object"; ao_namesOnly := None |}
  | GetRateByRoute route amount userAddress side options srcDecimals destDecimals =>
      sdk_getRateByRoute
        {| rr_route := route; rr_amount := amount; rr_userAddress := userAddress;
           rr_side := default SELL side; rr_options := options;
           rr_srcDecimals := srcDecimals; rr_destDecimals := destDecimals |}
  | GetRate srcToken destToken amount userAddress side options srcDecimals destDecimals =>
      sdk_getRate
        {| r_srcToken := srcToken; r_destToken := destToken; r_amount := amount;
           r_userAddress := userAddress; r_side := default SELL side;
           r_options := default (object []) options;
           r_srcDecimals := srcDecimals; r_destDecimals := destDecimals |}
  | BuildTx srcToken destToken srcAmount destAmount priceRoute userAddress partner
      partnerAddress partnerFeeBps receiver options srcDecimals destDecimals permit deadline =>
      sdk_buildTx
        {| tx_srcToken := srcToken; tx_destToken := destToken;
           tx_srcAmount := srcAmount; tx_destAmount := destAmount;
           tx_priceRoute := priceRoute; tx_userAddress := userAddress;
           tx_partner := partner; tx_partnerAddress := partnerAddress;
           tx_partnerFeeBps := partnerFeeBps; tx_receiver := receiver;
           tx_srcDecimals := srcDecimals; tx_destDecimals := destDecimals;
           tx_permit := permit; tx_deadline := deadline |}
        (default (object []) options)
  | GetTokenTransferProxy _ => sdk_getSpender
  | GetAllowances userAddress tokenAddresses => sdk_getAllowances userAddress tokenAddresses
  | GetAllowance userAddress tokenAddress => sdk_getAllowance userAddress tokenAddress
  | ApproveTokenBulk amount _ tokenAddresses _ => sdk_approveTokenBulk amount tokenAddresses
  | ApproveToken amount _ tokenAddress _ _ => sdk_approveToken amount tokenAddress
  | GetMarketNames => sdk_getAdapters {| ao_type := "list"; ao_namesOnly := Some true |}
  | GetBalance userAddress token => sdk_getBalance userAddress token
  | GetBalances userAddress => sdk_getBalances userAddress
  end.

(** Whether an operation reaches the sdk function on a given instance. *)
Definition delegates {Web3 BaseProvider World : Type}
    (this : @ParaSwap Web3 BaseProvider World) (req : Request) : bool :=
  match sdk this !! capability req with
  | Some _ => negb (answers_locally req)
  | None => false
  end.

(** A caller that awaits operations one after the other on the same
    instance and keeps how each settled. *)
Fixpoint perform_all {Web3 BaseProvider World : Type}
    (this : @ParaSwap Web3 BaseProvider World) (reqs : list Request) (st : @State World)
    : list (Completion JSValue) * @State World :=
  match reqs with
  | [] => ([], st)
  | req :: rest =>
      let '(r, st') := perform this req st in
      let '(rs, st'') := perform_all this rest st' in
      (r :: rs, st'')
  end.

(** * Properties *)

(** ** Values *)

Lemma get_not_nullish v k : nullish v = false -> get v k = Normal (field v k).
Proof. destruct v; simpl; congruence. Qed.

Lemma get_nullish v k : nullish v = true -> get v k = Throw TypeError.
Proof. destruct v; simpl; congruence. Qed.

Lemma isAxiosError_object e : isAxiosError e = true -> nullish e = false.
Proof. destruct e; simpl; congruence. Qed.

Lemma truthy_not_nullish v : truthy v = true -> nullish v = false.
Proof. destruct v; simpl; congruence. Qed.

(** ** [handleAPIError], branch by branch *)

Lemma ToString_throws v x : ToString v = Throw x -> x = TypeError.
Proof. destruct v as [| |[]| | | |[]]; simpl; congruence. Qed.

Lemma handleAPIError_unknown e :
  isAxiosError e = false ->
  handleAPIError e =
    let? text := ToString e in
    Normal (object [("message", JString ("Unknown error: " ++ text))]).
Proof. intros H. unfold handleAPIError. now rewrite H. Qed.

Lemma handleAPIError_no_response e :
  isAxiosError e = true -> truthy (field e "response") = false ->
  handleAPIError e = Normal (object [("message", field e "message")]).
Proof.
  intros Hax Hresp. unfold handleAPIError. rewrite Hax. simpl negb. cbv iota.
  rewrite !(get_not_nullish e) by now apply isAxiosError_object.
  simpl cbind. now rewrite Hresp.
Qed.

Lemma handleAPIError_response e :
  isAxiosError e = true -> truthy (field e "response") = true ->
  handleAPIError e =
    let? error := get (field (field e "response") "data") "error" in
    Normal (object [("status", field (field e "response") "status");
                    ("message", error);
                    ("data", field (field e "response") "data")]).
Proof.
  intros Hax Hresp. unfold handleAPIError. rewrite Hax. simpl negb. cbv iota.
  rewrite (get_not_nullish e) by now apply isAxiosError_object.
  simpl cbind. rewrite Hresp. simpl negb. cbv iota.
  rewrite !(get_not_nullish (field e "response")) by now apply truthy_not_nullish.
  reflexivity.
Qed.

Lemma handleAPIError_response_body e :
  isAxiosError e = true -> truthy (field e "response") = true ->
  nullish (field (field e "response") "data") = false ->
  handleAPIError e =
    Normal (object [("status", field (field e "response") "status");
                    ("message", field (field (field e "response") "data") "error");
                    ("data", field (field e "response") "data")]).
Proof.
  intros Hax Hresp Hbody. rewrite handleAPIError_response by assumption.
  now rewrite get_not_nullish.
Qed.

Lemma handleAPIError_response_no_body e :
  isAxiosError e = true -> truthy (field e "response") = true ->
  nullish (field (field e "response") "data") = true ->
  handleAPIError e = Throw TypeError.
Proof.
  intros Hax Hresp Hbody. rewrite handleAPIError_response by assumption.
  now rewrite get_nullish.
Qed.

(** The three examples of the specification, and a thrown number. *)
Example handleAPIError_bad_request :
  handleAPIError bad_request
  = Normal (object [("status", JInt 400); ("message", JString "bad request");
                    ("data", object [("error", JString "bad request")])]).
Proof. reflexivity. Qed.

Example handleAPIError_timeout :
  handleAPIError timeout = Normal (object [("message", JString "timeout")]).
Proof. reflexivity. Qed.

Example handleAPIError_thrown_string :
  handleAPIError (JString "boom") = Normal (object [("message", JString "Unknown error: boom")]).
Proof. reflexivity. Qed.

Example handleAPIError_thrown_number :
  handleAPIError (JInt (-42)) = Normal (object [("message", JString "Unknown error: -42")]).
Proof. reflexivity. Qed.

Example handleAPIError_thrown_error :
  handleAPIError
    (JObject (Some "Error: Invalid DEX list") [("message", JString "Invalid DEX list")])
  = Normal (object [("message", JString "Unknown error: Error: Invalid DEX list")]).
Proof. reflexivity. Qed.

Example handleAPIError_thrown_symbol : handleAPIError symbol_reason = Throw TypeError.
Proof. reflexivity. Qed.

Example handleAPIError_thrown_bare_object :
  handleAPIError (JObject None [("code", JInt 7)]) = Throw TypeError.
Proof. reflexivity. Qed.

Section FacadeProperties.

Context {AxiosStatic Fetch Web3 BaseProvider World : Type}.

Abbreviation ParaSwap := (@ParaSwap Web3 BaseProvider World).
Abbreviation State := (@State World).
Abbreviation Method := (@Method World).

(** ** The forwarding pattern *)

Lemma try_catch_await (m : Method) i (st : State) :
  try_catch (await m i) handleAPIError st =
    (match fst (m i (world st)) with
     | Resolved v => Normal v
     | Rejected e => handleAPIError e
     end,
     {| world := snd (m i (world st));
        calls := (calls st ++ [(i, fst (m i (world st)))])%list |}).
Proof.
  unfold try_catch, await. destruct (m i (world st)) as [o w]. simpl.
  now destruct o.
Qed.

Ltac unfold_methods :=
  unfold getTokens, getAdapters, getRateByRoute, getRate, buildTx,
    getTokenTransferProxy, getAllowances, getAllowance, approveTokenBulk,
    approveToken, getMarketNames, getBalance, getBalances, asserting.

(** Each method is its row of the table run through one pattern. *)
Lemma perform_forward (this : ParaSwap) req (st : State) :
  perform this req st =
    match sdk this !! capability req with
    | None => (Throw (AssertionError (assertion_message req)), st)
    | Some m =>
        if answers_locally req then
          (Normal (object [("message", JString "Invalid Route")]), st)
        else try_catch (await m (invocation req)) handleAPIError st
    end.
Proof.
  destruct req; simpl; unfold_methods;
    match goal with
    | |- context [sdk this !! ?k] => destruct (sdk this !! k) as [m|]
    end; simpl; try reflexivity.
  now destruct (length route <? 2)%nat.
Qed.

Lemma calls_grow_neq (l : list (Invocation * Outcome)) x : l <> (l ++ [x])%list.
Proof.
  intros H. apply (f_equal (@length _)) in H. rewrite length_app in H. simpl in H. lia.
Qed.

Lemma handleAPIError_throws e x : handleAPIError e = Throw x -> x = TypeError.
Proof.
  destruct (isAxiosError e) eqn:Hax.
  - destruct (truthy (field e "response")) eqn:Hresp.
    + destruct (nullish (field (field e "response") "data")) eqn:Hbody.
      * rewrite handleAPIError_response_no_body by assumption. congruence.
      * rewrite handleAPIError_response_body by assumption. congruence.
    + rewrite handleAPIError_no_response by assumption. congruence.
  - rewrite handleAPIError_unknown by assumption.
    destruct (ToString e) eqn:Hs; simpl; [congruence|].
    intros H. injection H as <-. now apply ToString_throws in Hs.
Qed.

(** An operation whose capability is present passes its assertion. *)
Lemma perform_present (this : ParaSwap) req (st : State) msg :
  is_Some (sdk this !! capability req) ->
  fst (perform this req st) <> Throw (AssertionError msg).
Proof.
  intros [m Hm].
  assert (Hgen : forall i,
    fst (try_catch (await m i) handleAPIError st) <> Throw (AssertionError msg)).
  { intros i. rewrite try_catch_await. simpl.
    destruct (fst (m i (world st))) as [v|e]; [congruence|].
    intros H. apply handleAPIError_throws in H. congruence. }
  destruct req; simpl in *; unfold_methods; rewrite Hm; simpl; try apply Hgen.
  destruct (length route <? 2)%nat; [simpl; congruence | apply Hgen].
Qed.

(** ** Pass-through of a success *)

(** C7: for every public operation, when the instance has the member, the
    operation is not answered by the route check, and the sdk function
    applied to the operation's arguments resolves with [v], the operation
    resolves with [v] itself, whatever value [v] is, having made that one
    call. *)
Theorem perform_resolved_unchanged (this : ParaSwap) req (st : State) (m : Method) v :
  sdk this !! capability req = Some m ->
  answers_locally req = false ->
  fst (m (invocation req) (world st)) = Resolved v ->
  perform this req st
  = (Normal v,
     {| world := snd (m (invocation req) (world st));
        calls := (calls st ++ [(invocation req, Resolved v)])%list |}).
Proof.
  intros Hm Hlocal Hv. rewrite perform_forward, Hm, Hlocal, try_catch_await.
  now rewrite Hv.
Qed.

(** ** The route check of [getRateByRoute] *)

Lemma getRateByRoute_short (this : ParaSwap) m route amount userAddress side options
    srcDecimals destDecimals (st : State) :
  sdk this !! "getRateByRoute" = Some m ->
  (length route < 2)%nat ->
  getRateByRoute this route amount userAddress side options srcDecimals destDecimals st
  = (Normal (object [("message", JString "Invalid Route")]), st).
Proof.
  intros Hm Hlen. unfold getRateByRoute, asserting. rewrite Hm. simpl.
  apply Nat.ltb_lt in Hlen. now rewrite Hlen.
Qed.

Lemma getRateByRoute_long (this : ParaSwap) m route amount userAddress side options
    srcDecimals destDecimals (st : State) :
  sdk this !! "getRateByRoute" = Some m ->
  (2 <= length route)%nat ->
  getRateByRoute this route amount userAddress side options srcDecimals destDecimals st
  = try_catch
      (await m
         (sdk_getRateByRoute
            {| rr_route := route; rr_amount := amount; rr_userAddress := userAddress;
               rr_side := default SELL side; rr_options := options;
               rr_srcDecimals := srcDecimals; rr_destDecimals := destDecimals |}))
      handleAPIError st.
Proof.
  intros Hm Hlen. unfold getRateByRoute, asserting. rewrite Hm. simpl.
  apply Nat.ltb_ge in Hlen. now rewrite Hlen.
Qed.

(** ** The approvals *)

(** C10: [approveToken] and [approveTokenBulk] do not look at [userAddress]
    or [_provider]: two calls that differ only there run identically (same
    result, same state after), and what is delegated is the amount and the
    token address(es) alone. *)
Theorem approve_ignores_user_and_provider (this : ParaSwap) amount userAddress userAddress'
    tokenAddress tokenAddresses _provider _provider' sendOptions (st : State) :
  approveToken this amount userAddress tokenAddress _provider sendOptions st
  = approveToken this amount userAddress' tokenAddress _provider' sendOptions st
  /\ approveTokenBulk this amount userAddress tokenAddresses _provider st
     = approveTokenBulk this amount userAddress' tokenAddresses _provider' st
  /\ (forall m, sdk this !! "approveToken" = Some m ->
        approveToken this amount userAddress tokenAddress _provider sendOptions st
        = try_catch (await m (sdk_approveToken amount tokenAddress)) handleAPIError st)
  /\ (forall m, sdk this !! "approveTokenBulk" = Some m ->
        approveTokenBulk this amount userAddress tokenAddresses _provider st
        = try_catch (await m (sdk_approveTokenBulk amount tokenAddresses)) handleAPIError st).
Proof.
  repeat split; try reflexivity;
    intros m Hm; unfold approveToken, approveTokenBulk, asserting; now rewrite Hm.
Qed.

(** ** [setWeb3Provider] *)

(** C9: [setWeb3Provider] returns the reference it was called on and leaves
    the store of objects as it was; in particular the instance's sdk object,
    network id, API URL and provider references are the ones from before. *)
Theorem setWeb3Provider_no_effect (this : nat) (provider : JSValue) (heap : gmap nat ParaSwap) :
  fst (setWeb3Provider this provider heap) = this
  /\ snd (setWeb3Provider this provider heap) = heap
  /\ sdk <$> (snd (setWeb3Provider this provider heap) !! this) = sdk <$> (heap !! this)
  /\ network <$> (snd (setWeb3Provider this provider heap) !! this) = network <$> (heap !! this)
  /\ apiURL <$> (snd (setWeb3Provider this provider heap) !! this) = apiURL <$> (heap !! this)
  /\ web3Provider <$> (snd (setWeb3Provider this provider heap) !! this)
     = web3Provider <$> (heap !! this)
  /\ ethersProvider <$> (snd (setWeb3Provider this provider heap) !! this)
     = ethersProvider <$> (heap !! this).
Proof. unfold setWeb3Provider. simpl. repeat split. Qed.

End FacadeProperties.

(** ** Construction *)

Section Construction.

Context {AxiosStatic Fetch Web3 BaseProvider World : Type}.
Context {constructors : @SDKConstructors AxiosStatic Fetch Web3 BaseProvider World}.

Lemma constructor_no_fetcher network apiURL web3Provider ethersProvider :
  constructor network apiURL web3Provider ethersProvider None None
  = Throw (AssertionError "at least one fetcher is needed").
Proof. reflexivity. Qed.

(** With a fetcher resolved, construction succeeds; the instance keeps the
    arguments and its sdk object is assembled over that fetcher and the
    contract caller the providers resolve to. *)
Lemma constructor_built network apiURL web3Provider ethersProvider axios fetch fetcher :
  resolved_fetcher axios fetch = Some fetcher ->
  constructor network apiURL web3Provider ethersProvider axios fetch
  = Normal {| network := default 1 network; apiURL := default API_URL apiURL;
              web3Provider := web3Provider; ethersProvider := ethersProvider;
              sdk := assembled
                       {| ci_fetcher := fetcher;
                          ci_contractCaller := resolved_caller web3Provider ethersProvider;
                          ci_apiURL := default API_URL apiURL;
                          ci_network := default 1 network |} |}.
Proof.
  intros Hf. unfold constructor.
  assert (Hfetcher :
    match axios with
    | Some axios => Some (constructAxiosFetcher axios)
    | None => match fetch with
              | Some fetch => Some (constructFetchFetcher fetch)
              | None => None
              end
    end = Some fetcher).
  { rewrite <- Hf. now destruct axios, fetch. }
  rewrite Hfetcher. simpl.
  now destruct web3Provider, ethersProvider.
Qed.

Lemma supplied_resolved_fetcher (axios : option AxiosStatic) (fetch : option Fetch) :
  supplied axios || supplied fetch = true ->
  exists fetcher, resolved_fetcher axios fetch = Some fetcher.
Proof. destruct axios, fetch; simpl; eauto; discriminate. Qed.

(** C2: construction resolves one transport.  With an axios client supplied
    the sdk object is assembled over the axios fetcher, whether or not a
    [fetch] function came too; with only a [fetch] function, over the fetch
    fetcher; with neither, construction throws
    "at least one fetcher is needed" and yields no instance. *)
Theorem constructor_transport network apiURL web3Provider ethersProvider axios fetch :
  let over fetcher :=
    {| ci_fetcher := fetcher;
       ci_contractCaller := resolved_caller web3Provider ethersProvider;
       ci_apiURL := default API_URL apiURL; ci_network := default 1 network |} in
  match axios, fetch with
  | Some axios', _ =>
      exists this,
        constructor network apiURL web3Provider ethersProvider axios fetch = Normal this
        /\ sdk this = assembled (over (constructAxiosFetcher axios'))
  | None, Some fetch' =>
      exists this,
        constructor network apiURL web3Provider ethersProvider axios fetch = Normal this
        /\ sdk this = assembled (over (constructFetchFetcher fetch'))
  | None, None =>
      constructor network apiURL web3Provider ethersProvider axios fetch
      = Throw (AssertionError "at least one fetcher is needed")
  end.
Proof.
  intros over. destruct axios as [ax|]; [|destruct fetch as [f|]; [|reflexivity]].
  - rewrite (constructor_built _ _ _ _ (Some ax) fetch (constructAxiosFetcher ax) eq_refl).
    eexists. split; reflexivity.
  - rewrite (constructor_built _ _ _ _ None (Some f) (constructFetchFetcher f) eq_refl).
    eexists. split; reflexivity.
Qed.

End Construction.

(** ** Construction over the constructors of the specification *)

Section ModelledConstruction.

Context {AxiosStatic Fetch Web3 BaseProvider World : Type}.
Variable remote : @ConstructInput AxiosStatic Fetch Web3 BaseProvider -> @Method World.

Abbreviation new := (constructor (constructors := modelled remote)).
Abbreviation State := (@State World).

Abbreviation read_only_constructors :=
  [modelled_constructGetBalances remote; modelled_constructGetTokens remote;
   modelled_constructGetSpender remote; modelled_constructBuildTx remote;
   modelled_constructGetAdapters remote; modelled_constructGetRate remote].

Ltac unfold_modelled :=
  unfold modelled_constructSDK, modelled_constructPartialSDK,
    modelled_constructGetBalances, modelled_constructGetTokens,
    modelled_constructGetSpender, modelled_constructBuildTx,
    modelled_constructGetAdapters, modelled_constructGetRate; simpl.

Lemma constructPartialSDK_dom ci :
  dom (modelled_constructPartialSDK ci read_only_constructors) = FETCHER_BACKED.
Proof.
  unfold_modelled. unfold FETCHER_BACKED, READ_ONLY.
  rewrite !dom_union_L, !dom_insert_L, !dom_singleton_L, !dom_empty_L. set_solver.
Qed.

Lemma constructSDK_dom ci :
  dom (modelled_constructSDK remote ci) = READ_ONLY ∪ PROVIDER_BACKED.
Proof.
  unfold modelled_constructSDK. rewrite dom_union_L, constructPartialSDK_dom.
  unfold FETCHER_BACKED, PROVIDER_BACKED. simpl.
  rewrite !dom_insert_L, !dom_empty_L. set_solver.
Qed.

Lemma constructPartialSDK_over ci :
  map_Forall (fun _ m => m = remote ci) (modelled_constructPartialSDK ci read_only_constructors).
Proof.
  unfold_modelled.
  repeat first
    [ apply map_Forall_union_2
    | apply map_Forall_insert_2; [reflexivity|]
    | apply map_Forall_singleton; reflexivity
    | apply map_Forall_empty ].
Qed.

Lemma constructSDK_over ci :
  map_Forall (fun _ m => m = remote ci) (modelled_constructSDK remote ci).
Proof.
  unfold modelled_constructSDK. apply map_Forall_union_2; [|apply constructPartialSDK_over].
  simpl. repeat (apply map_Forall_insert_2; [reflexivity|]). apply map_Forall_empty.
Qed.

Lemma capability_fetcher_backed req :
  is_approval req = false -> capability req ∈ FETCHER_BACKED.
Proof.
  destruct req; simpl; try discriminate; intros _; unfold FETCHER_BACKED, READ_ONLY;
    set_solver.
Qed.

Lemma capability_full req : capability req ∈ READ_ONLY ∪ PROVIDER_BACKED.
Proof. destruct req; simpl; unfold READ_ONLY, PROVIDER_BACKED; set_solver. Qed.

Lemma constructPartialSDK_approval ci req :
  is_approval req = true ->
  modelled_constructPartialSDK ci read_only_constructors !! capability req = None.
Proof. destruct req; simpl; try discriminate; intros _; reflexivity. Qed.

(** C3 (amended): with a transport and no provider the instance has the
    read-only members and the two allowance queries, and none of the
    approvals; every operation but the approvals passes its capability
    check, and each approval rejects at once with the failed assertion
    itself, "sdk must be initialized with a provider" (no normalised error,
    no call made). *)
Theorem constructor_transport_only network apiURL axios fetch :
  supplied axios || supplied fetch = true ->
  exists this,
    new network apiURL None None axios fetch = Normal this
    /\ dom (sdk this) = FETCHER_BACKED
    /\ (forall req (st : State) msg, is_approval req = false ->
          fst (perform this req st) <> Throw (AssertionError msg))
    /\ (forall req (st : State), is_approval req = true ->
          perform this req st
          = (Throw (AssertionError "sdk must be initialized with a provider"), st)).
Proof.
  intros Hsup. destruct (supplied_resolved_fetcher _ _ Hsup) as [fetcher Hf].
  eexists. split; [apply (constructor_built _ _ None None _ _ _ Hf)|]. simpl.
  split; [apply constructPartialSDK_dom|]. split.
  - intros req st msg Hreq. apply perform_present. simpl.
    apply elem_of_dom. unfold assembled; simpl.
    rewrite constructPartialSDK_dom. now apply capability_fetcher_backed.
  - intros req st Hreq. rewrite perform_forward. simpl. unfold assembled; simpl.
    rewrite constructPartialSDK_approval by assumption.
    destruct req; try discriminate; reflexivity.
Qed.

(** C4: with a transport and at least one provider the instance has the full
    set of members, allowance and approval included, each built over the
    contract caller of the ethers provider when that one is supplied and of
    the Web3 provider otherwise; no operation fails its capability check. *)
Theorem constructor_with_provider network apiURL web3Provider ethersProvider axios fetch :
  supplied axios || supplied fetch = true ->
  supplied web3Provider || supplied ethersProvider = true ->
  exists this ci,
    new network apiURL web3Provider ethersProvider axios fetch = Normal this
    /\ dom (sdk this) = READ_ONLY ∪ PROVIDER_BACKED
    /\ map_Forall (fun _ m => m = remote ci) (sdk this)
    /\ ci_contractCaller ci =
         match ethersProvider with
         | Some ethersProvider' => Some (constructEthersContractCaller ethersProvider')
         | None => constructWeb3ContractCaller <$> web3Provider
         end
    /\ is_Some (ci_contractCaller ci)
    /\ (forall req (st : State) msg, fst (perform this req st) <> Throw (AssertionError msg)).
Proof.
  intros Hsup Hprov. destruct (supplied_resolved_fetcher _ _ Hsup) as [fetcher Hf].
  assert (Hc : exists caller, resolved_caller web3Provider ethersProvider = Some caller).
  { destruct web3Provider, ethersProvider; simpl in *; eauto; discriminate. }
  destruct Hc as [caller Hc].
  pose proof (constructor_built (constructors := modelled remote)
                network apiURL web3Provider ethersProvider _ _ _ Hf) as Hnew.
  unfold assembled in Hnew. simpl in Hnew. rewrite Hc in Hnew.
  eexists _, _. split; [exact Hnew|]. simpl.
  split; [apply constructSDK_dom|].
  split; [apply constructSDK_over|].
  split; [now rewrite <- Hc|].
  split; [now exists caller|].
  intros req st msg. apply perform_present. simpl.
  apply elem_of_dom. rewrite constructSDK_dom. apply capability_full.
Qed.

(** Every instance the constructor yields has the rate-by-route member. *)
Lemma constructor_has_getRateByRoute network apiURL web3Provider ethersProvider axios fetch this :
  new network apiURL web3Provider ethersProvider axios fetch = Normal this ->
  is_Some (sdk this !! "getRateByRoute").
Proof.
  intros Hnew.
  destruct (resolved_fetcher axios fetch) as [fetcher|] eqn:Hf.
  - rewrite (constructor_built _ _ _ _ _ _ _ Hf) in Hnew. injection Hnew as <-. simpl.
    apply elem_of_dom. unfold assembled; simpl.
    destruct (resolved_caller web3Provider ethersProvider);
      rewrite ?constructSDK_dom, ?constructPartialSDK_dom;
      unfold FETCHER_BACKED, READ_ONLY; set_solver.
  - destruct axios, fetch; discriminate.
Qed.

(** C5: on an instance the constructor built, [getRateByRoute] with a route
    of fewer than two entries resolves to [{ message: "Invalid Route" }] and
    leaves the state as it was: no delegated call is recorded and the outside
    world is not touched.  With two entries or more the method is the
    delegated call to [sdk.getRateByRoute] on that route, recorded once. *)
Theorem getRateByRoute_route_check network apiURL web3Provider ethersProvider axios fetch
    this route amount userAddress side options srcDecimals destDecimals (st : State) :
  new network apiURL web3Provider ethersProvider axios fetch = Normal this ->
  let input :=
    sdk_getRateByRoute
      {| rr_route := route; rr_amount := amount; rr_userAddress := userAddress;
         rr_side := default SELL side; rr_options := options;
         rr_srcDecimals := srcDecimals; rr_destDecimals := destDecimals |} in
  let run :=
    getRateByRoute this route amount userAddress side options srcDecimals destDecimals st in
  ((length route < 2)%nat ->
     run = (Normal (object [("message", JString "Invalid Route")]), st))
  /\ ((2 <= length route)%nat ->
     exists m, sdk this !! "getRateByRoute" = Some m
       /\ run = try_catch (await m input) handleAPIError st
       /\ calls (snd run) = (calls st ++ [(input, fst (m input (world st)))])%list).
Proof.
  intros Hnew input run.
  destruct (constructor_has_getRateByRoute _ _ _ _ _ _ _ Hnew) as [m Hm].
  split; intros Hlen.
  - now apply getRateByRoute_short with m.
  - exists m. split; [assumption|].
    assert (Hrun : run = try_catch (await m input) handleAPIError st)
      by now apply getRateByRoute_long.
    split; [assumption|]. rewrite Hrun, try_catch_await. reflexivity.
Qed.

End ModelledConstruction.

Lemma client_constructed o :
  constructor (constructors := modelled (settling o)) None None None None (Some tt) None = Normal (client o).
Proof. reflexivity. Qed.

(** C1 at a transport error that carries a response ([status] 500) whose
    body is [null]: no normalised error comes back; the read of [data.error]
    throws inside the handler and the operation rejects with the
    [TypeError]. *)
Lemma perform_rejected_null_body :
  isAxiosError null_body = true
  /\ truthy (field null_body "response") = true
  /\ perform (client (Rejected null_body)) GetTokens start
     = (Throw TypeError, {| world := tt; calls := [(sdk_getTokens, Rejected null_body)] |}).
Proof. repeat split; vm_compute; reflexivity. Qed.

(** The same for a rejection whose reason has no string form. *)
Example perform_rejected_symbol :
  perform (client (Rejected symbol_reason)) GetTokens start
  = (Throw TypeError, {| world := tt; calls := [(sdk_getTokens, Rejected symbol_reason)] |}).
Proof. vm_compute. reflexivity. Qed.

(** A token list handed back as it came. *)
Lemma perform_resolved_unchanged_witness :
  let tokens := object [("0", object [("symbol", JString "ETH"); ("decimals", JInt 18)]);
                        ("length", JInt 1)] in
  let this := client (Resolved tokens) in
  let m : Method (World := unit) := fun _ w => (Resolved tokens, w) in
  sdk this !! capability GetTokens = Some m
  /\ answers_locally GetTokens = false
  /\ fst (m (invocation GetTokens) (world start)) = Resolved tokens
  /\ perform this GetTokens start
     = (Normal tokens, {| world := tt; calls := [(sdk_getTokens, Resolved tokens)] |}).
Proof.
  intros tokens this m.
  assert (Hm : sdk this !! capability GetTokens = Some m) by (vm_compute; reflexivity).
  do 3 (split; [first [exact Hm | reflexivity]|]).
  exact (perform_resolved_unchanged this GetTokens start m tokens Hm eq_refl eq_refl).
Defined.

(** C8 at a response that does not come from the pricing service: the 502
    page of a gateway.  The operation resolves to an object whose [message]
    is [undefined]. *)
Lemma getTokens_bad_gateway_message_undefined :
  let r := object [("status", JInt 502); ("message", JUndefined);
                   ("data", JString "<html>502 Bad Gateway</html>")] in
  perform (client (Rejected bad_gateway)) GetTokens start
  = (Normal r, {| world := tt; calls := [(sdk_getTokens, Rejected bad_gateway)] |})
  /\ get r "message" = Normal JUndefined.
Proof. split; vm_compute; reflexivity. Qed.

Lemma constructor_transport_only_witness :
  supplied (Some tt) || supplied (@None unit) = true
  /\ exists this : ParaSwap (Web3 := unit) (BaseProvider := unit) (World := unit),
       constructor (constructors := modelled (settling (Resolved JNull)))
         None None None None (Some tt) None = Normal this
       /\ dom (sdk this) = FETCHER_BACKED
       /\ (forall req st msg, is_approval req = false ->
             fst (perform this req st) <> Throw (AssertionError msg))
       /\ (forall req st, is_approval req = true ->
             perform this req st
             = (Throw (AssertionError "sdk must be initialized with a provider"), st)).
Proof.
  split; [reflexivity|].
  exact (constructor_transport_only (settling (Resolved JNull)) None None (Some tt) None eq_refl).
Defined.

(** C3 as stated fails for the allowance queries: on the transport-only
    instance [getAllowances] passes its assertion and calls the sdk
    function. *)
Lemma getAllowances_without_provider_delegates :
  constructor (constructors := modelled (settling (Resolved (object []))))
    None None None None (Some tt) None = Normal (client (Resolved (object [])))
  /\ getAllowances (client (Resolved (object []))) "0xuser" ["0xtoken"] start
     = (Normal (object []),
        {| world := tt;
           calls := [(sdk_getAllowances "0xuser" ["0xtoken"], Resolved (object []))] |}).
Proof. split; vm_compute; reflexivity. Qed.

Example approveToken_without_provider :
  approveToken (client (Resolved JNull)) "1000" "0xuser" "0xtoken" None None start
  = (Throw (AssertionError "sdk must be initialized with a provider"), start).
Proof. vm_compute. reflexivity. Qed.

Lemma constructor_with_provider_witness :
  supplied (@None unit) || supplied (Some tt) = true
  /\ supplied (Some tt) || supplied (Some tt) = true
  /\ exists (this : ParaSwap (Web3 := unit) (BaseProvider := unit) (World := unit)) ci,
       constructor (constructors := modelled (settling (Resolved JNull))) None None (Some tt) (Some tt) None (Some tt)
       = Normal this
       /\ dom (sdk this) = READ_ONLY ∪ PROVIDER_BACKED
       /\ map_Forall (fun _ m => m = settling (Resolved JNull) ci) (sdk this)
       /\ ci_contractCaller ci = Some (constructEthersContractCaller tt)
       /\ is_Some (ci_contractCaller ci)
       /\ (forall req st msg, fst (perform this req st) <> Throw (AssertionError msg)).
Proof.
  split; [reflexivity|]. split; [reflexivity|].
  exact (constructor_with_provider (settling (Resolved JNull)) None None (Some tt) (Some tt)
           None (Some tt) eq_refl eq_refl).
Defined.

Lemma getRateByRoute_route_check_witness :
  constructor (constructors := modelled (settling (Resolved JNull))) None None None None (Some tt) None
  = Normal (client (Resolved JNull))
  /\ (length ["ETH"] < 2)%nat
  /\ getRateByRoute (client (Resolved JNull)) ["ETH"] "1000" None None None None None start
     = (Normal (object [("message", JString "Invalid Route")]), start).
Proof.
  split; [reflexivity|]. split; [simpl; lia|].
  apply (proj1 (getRateByRoute_route_check (settling (Resolved JNull))
                  None None None None (Some tt) None (client (Resolved JNull))
                  ["ETH"] "1000" None None None None None start eq_refl)).
  simpl; lia.
Defined.

Example getRateByRoute_two_hops :
  getRateByRoute (client (Resolved (JString "rate"))) ["ETH"; "DAI"] "1000" None None None None
    None start
  = (Normal (JString "rate"),
     {| world := tt;
        calls := [(sdk_getRateByRoute
                     {| rr_route := ["ETH"; "DAI"]; rr_amount := "1000";
                        rr_userAddress := None; rr_side := SELL; rr_options := None;
                        rr_srcDecimals := None; rr_destDecimals := None |},
                   Resolved (JString "rate"))] |}).
Proof. vm_compute. reflexivity. Qed.

(** ** The registry *)

Abbreviation registered := ["uniswap"; "uniswapv2"; "sushiswap"; "defiswap"; "linkswap"].

(** C6 (amended): a read of the table finds one adapter for "uniswap" and a
    second one for "uniswapv2", "sushiswap", "defiswap" and "linkswap" alike;
    the two reads differ unless the two imported classes are one and the
    same; an identifier that is neither one of the five nor the name of a
    member of [Object.prototype] is not found, and such a name finds the
    inherited member. *)
Theorem DEXS_lookup {Adapter : Type} (UniswapV1 UniswapV2 : Adapter) (dex : string) :
  let DEXS := DEXS UniswapV1 UniswapV2 in
  read DEXS "uniswap" = Some (Own UniswapV1)
  /\ read DEXS "uniswapv2" = Some (Own UniswapV2)
  /\ read DEXS "sushiswap" = Some (Own UniswapV2)
  /\ read DEXS "defiswap" = Some (Own UniswapV2)
  /\ read DEXS "linkswap" = Some (Own UniswapV2)
  /\ (read DEXS "uniswap" = read DEXS "uniswapv2" <-> UniswapV1 = UniswapV2)
  /\ (dex ∉ registered -> dex ∉ Object_prototype -> read DEXS dex = None)
  /\ (dex ∈ Object_prototype -> read DEXS dex = Some (Inherited dex)).
Proof.
  intros D. unfold D. do 5 (split; [reflexivity|]).
  split; [split; [intros H; now injection H | now intros ->]|].
  assert (Hown : dex ∉ registered -> properties (DEXS UniswapV1 UniswapV2) !! dex = None).
  { intros Hdex. apply not_elem_of_list_to_map_1. exact Hdex. }
  split.
  - intros Hdex Hproto. unfold read. rewrite Hown by assumption. now rewrite decide_False.
  - intros Hproto. unfold read. rewrite Hown.
    + now rewrite decide_True.
    + intros Hdex. revert Hproto. unfold Object_prototype.
      rewrite !elem_of_cons, elem_of_nil in Hdex.
      destruct Hdex as [->|[->|[->|[->|[->|[]]]]]];
        rewrite !elem_of_cons, elem_of_nil; intuition discriminate.
Qed.

Lemma DEXS_lookup_witness :
  ("nonexistent" ∉ registered) /\ ("nonexistent" ∉ Object_prototype)
  /\ read (DEXS true false) "nonexistent" = None.
Proof.
  assert (H : "nonexistent" ∉ registered)
    by (rewrite !not_elem_of_cons; repeat split; [discriminate..|apply not_elem_of_nil]).
  assert (H' : "nonexistent" ∉ Object_prototype)
    by (unfold Object_prototype; rewrite !not_elem_of_cons;
        repeat split; [discriminate..|apply not_elem_of_nil]).
  split; [exact H|]. split; [exact H'|].
  exact (proj1 (proj2 (proj2 (proj2 (proj2 (proj2 (proj2
           (DEXS_lookup true false "nonexistent"))))))) H H').
Defined.

(** C6 as stated fails: "constructor" is none of the five identifiers, yet a
    read of the table finds the member of that name that every object
    literal inherits. *)
Lemma DEXS_constructor_found :
  ("constructor" ∉ registered)
  /\ read (DEXS true false) "constructor" = Some (Inherited "constructor").
Proof.
  split; [|reflexivity].
  rewrite !not_elem_of_cons; repeat split; [discriminate..|apply not_elem_of_nil].
Qed.

(** * Further properties of the code *)

(** ** When [handleAPIError] throws, and what its results look like *)

Lemma handleAPIError_throw_inv e x :
  handleAPIError e = Throw x ->
  (isAxiosError e = false /\ ToString e = Throw x)
  \/ (x = TypeError /\ isAxiosError e = true /\ truthy (field e "response") = true
      /\ nullish (field (field e "response") "data") = true).
Proof.
  intros H.
  destruct (isAxiosError e) eqn:Hax.
  - right. split; [now apply handleAPIError_throws in H|]. split; [reflexivity|].
    destruct (truthy (field e "response")) eqn:Hresp;
      [|rewrite handleAPIError_no_response in H by assumption; discriminate].
    destruct (nullish (field (field e "response") "data")) eqn:Hbody; [auto|].
    rewrite handleAPIError_response_body in H by assumption. discriminate.
  - left. split; [reflexivity|].
    rewrite handleAPIError_unknown in H by assumption.
    destruct (ToString e); simpl in H; [discriminate | congruence].
Qed.

(** The handler throws in two situations only.  Either the failure is not an
    axios error and has no string form (a symbol, an object without one):
    the template literal throws, and the handler throws what the conversion
    threw.  Or it is an axios error that carries a response whose body is
    [null] or [undefined]: the read of [data.error] throws a [TypeError]. *)
Theorem handleAPIError_throw_iff e x :
  handleAPIError e = Throw x
  <-> (isAxiosError e = false /\ ToString e = Throw x)
      \/ (x = TypeError /\ isAxiosError e = true /\ truthy (field e "response") = true
          /\ nullish (field (field e "response") "data") = true).
Proof.
  split; [apply handleAPIError_throw_inv|].
  intros [[Hax Hs] | (-> & Hax & Hresp & Hbody)].
  - rewrite handleAPIError_unknown by assumption. now rewrite Hs.
  - now apply handleAPIError_response_no_body.
Qed.

(** Whatever the handler returns is an object literal with a [message] key of
    its own (its value may be [undefined]); the keys [status] and [data] are
    there exactly when the failure was an axios error with a response. *)
Theorem handleAPIError_keys e r :
  handleAPIError e = Normal r ->
  exists props,
    r = object props
    /\ is_Some (own "message" props)
    /\ (is_Some (own "status" props)
        <-> isAxiosError e = true /\ truthy (field e "response") = true)
    /\ (is_Some (own "data" props)
        <-> isAxiosError e = true /\ truthy (field e "response") = true).
Proof.
  intros H.
  destruct (isAxiosError e) eqn:Hax.
  - destruct (truthy (field e "response")) eqn:Hresp.
    + destruct (nullish (field (field e "response") "data")) eqn:Hbody.
      * rewrite handleAPIError_response_no_body in H by assumption. discriminate.
      * rewrite handleAPIError_response_body in H by assumption. injection H as <-.
        eexists. split; [reflexivity|]. simpl. repeat split; eauto.
    + rewrite handleAPIError_no_response in H by assumption. injection H as <-.
      eexists. split; [reflexivity|]. simpl.
      repeat split; eauto; intros; try discriminate;
        match goal with
        | H : is_Some None |- _ => now destruct H
        | H : _ /\ _ |- _ => destruct H; discriminate
        end.
  - rewrite handleAPIError_unknown in H by assumption.
    destruct (ToString e); simpl in H; [|discriminate]. injection H as <-.
    eexists. split; [reflexivity|]. simpl.
    repeat split; eauto; intros; try discriminate;
      match goal with
      | H : is_Some None |- _ => now destruct H
      | H : _ /\ _ |- _ => destruct H; discriminate
      end.
Qed.

Lemma handleAPIError_keys_witness :
  handleAPIError timeout = Normal (object [("message", JString "timeout")])
  /\ exists props,
       object [("message", JString "timeout")] = object props
       /\ is_Some (own "message" props)
       /\ (is_Some (own "status" props)
           <-> isAxiosError timeout = true /\ truthy (field timeout "response") = true)
       /\ (is_Some (own "data" props)
           <-> isAxiosError timeout = true /\ truthy (field timeout "response") = true).
Proof.
  split; [reflexivity|].
  exact (handleAPIError_keys timeout (object [("message", JString "timeout")]) eq_refl).
Defined.

(** A failure that is not an axios error keeps nothing but its string form:
    two such failures with the same string form (or both with none) are
    handled alike, whatever fields they have; and when there is a string
    form the result is the message "Unknown error: " followed by it, a
    non-empty string. *)
Theorem handleAPIError_keeps_only_string e1 e2 :
  isAxiosError e1 = false -> isAxiosError e2 = false ->
  ToString e1 = ToString e2 ->
  handleAPIError e1 = handleAPIError e2
  /\ forall text, ToString e1 = Normal text ->
       handleAPIError e1 = Normal (object [("message", JString ("Unknown error: " ++ text))])
       /\ truthy (JString ("Unknown error: " ++ text)) = true.
Proof.
  intros H1 H2 Hs. rewrite !handleAPIError_unknown by assumption. rewrite Hs.
  split; [reflexivity|]. intros text Htext. rewrite Htext. now split.
Qed.

(** Two plain objects with different fields. *)
Lemma handleAPIError_keeps_only_string_witness :
  let e1 := object [("message", JString "Invalid DEX list"); ("code", JInt 7)] in
  let e2 := object [] in
  isAxiosError e1 = false /\ isAxiosError e2 = false /\ ToString e1 = ToString e2
  /\ handleAPIError e1 = handleAPIError e2
  /\ forall text, ToString e1 = Normal text ->
       handleAPIError e1 = Normal (object [("message", JString ("Unknown error: " ++ text))])
       /\ truthy (JString ("Unknown error: " ++ text)) = true.
Proof.
  intros e1 e2. do 3 (split; [reflexivity|]).
  exact (handleAPIError_keeps_only_string e1 e2 eq_refl eq_refl eq_refl).
Defined.

(** ** The thirteen async methods *)

Section Forwarding.

Context {Web3 BaseProvider World : Type}.

Abbreviation ParaSwap := (@ParaSwap Web3 BaseProvider World).
Abbreviation State := (@State World).

(** A method rejects with an assertion failure exactly when the sdk object
    lacks the member it needs.  It then has made no call and left the state
    as it was, and the message asks for a provider in the two approvals and
    for a fetcher everywhere else, the allowance queries included. *)
Theorem perform_assertion_failure (this : ParaSwap) req (st : State) :
  (sdk this !! capability req = None ->
     perform this req st = (Throw (AssertionError (assertion_message req)), st))
  /\ (forall msg, fst (perform this req st) = Throw (AssertionError msg) ->
        sdk this !! capability req = None /\ msg = assertion_message req
        /\ snd (perform this req st) = st).
Proof.
  rewrite perform_forward. destruct (sdk this !! capability req) as [m|]; split.
  - discriminate.
  - intros msg H. exfalso. destruct (answers_locally req); [discriminate|].
    rewrite try_catch_await in H. simpl in H.
    destruct (fst (m (invocation req) (world st))); [discriminate|].
    apply handleAPIError_throws in H. discriminate.
  - reflexivity.
  - simpl. intros msg H. injection H as <-. auto.
Qed.

(** What a method does to the state: nothing when the member is missing or
    the route check answers; otherwise exactly one call of the sdk function,
    on the arguments of the table, appended to the calls made before, the
    world being what that call left.  Nothing is retried and nothing else is
    called. *)
Theorem perform_state_after (this : ParaSwap) req (st : State) :
  snd (perform this req st) =
    match sdk this !! capability req with
    | None => st
    | Some m =>
        if answers_locally req then st
        else {| world := snd (m (invocation req) (world st));
                calls := (calls st
                            ++ [(invocation req, fst (m (invocation req) (world st)))])%list |}
    end.
Proof.
  rewrite perform_forward. destruct (sdk this !! capability req) as [m|]; [|reflexivity].
  destruct (answers_locally req); [reflexivity|]. now rewrite try_catch_await.
Qed.

(** A method rejects with a [TypeError] only after it delegated and the sdk
    function rejected, with a failure that is not an axios error and whose
    conversion to a string throws a [TypeError], or with an axios error
    carrying a response whose body is [null] or [undefined]. *)
Theorem perform_type_error_origin (this : ParaSwap) req (st : State) :
  fst (perform this req st) = Throw TypeError ->
  exists m e,
    sdk this !! capability req = Some m
    /\ answers_locally req = false
    /\ fst (m (invocation req) (world st)) = Rejected e
    /\ ((isAxiosError e = false /\ ToString e = Throw TypeError)
        \/ (isAxiosError e = true
            /\ truthy (field e "response") = true
            /\ nullish (field (field e "response") "data") = true)).
Proof.
  rewrite perform_forward. destruct (sdk this !! capability req) as [m|]; [|discriminate].
  destruct (answers_locally req); [discriminate|].
  rewrite try_catch_await. simpl.
  destruct (fst (m (invocation req) (world st))) as [v|e] eqn:Ho; [discriminate|].
  intros H. exists m, e. do 2 (split; [reflexivity|]). split; [exact Ho|].
  apply handleAPIError_throw_inv in H. destruct H as [H | (_ & H)]; auto.
Qed.

(** When the sdk function rejects with [e], the method's result follows a
    three-way split.  If [e] is not an axios error and has the string form
    [text], the result is [{ message: "Unknown error: " + text }]; if it is
    an axios error with no response, [{ message: e.message }] and nothing
    else; if it carries a response whose body is neither [null] nor
    [undefined],
    [{ status: response.status, message: body.error, data: body }]. *)
Theorem perform_rejected_split (this : ParaSwap) req (st : State) (m : Method) e :
  sdk this !! capability req = Some m ->
  answers_locally req = false ->
  fst (m (invocation req) (world st)) = Rejected e ->
  (forall text, isAxiosError e = false -> ToString e = Normal text ->
     fst (perform this req st)
     = Normal (object [("message", JString ("Unknown error: " ++ text))]))
  /\ (isAxiosError e = true -> truthy (field e "response") = false ->
     fst (perform this req st) = Normal (object [("message", field e "message")]))
  /\ (isAxiosError e = true -> truthy (field e "response") = true ->
     nullish (field (field e "response") "data") = false ->
     fst (perform this req st)
     = Normal (object [("status", field (field e "response") "status");
                       ("message", field (field (field e "response") "data") "error");
                       ("data", field (field e "response") "data")])).
Proof.
  intros Hm Hlocal He. rewrite perform_forward, Hm, Hlocal, try_catch_await. simpl.
  rewrite He. repeat split.
  - intros text Hax Htext. rewrite handleAPIError_unknown by assumption. now rewrite Htext.
  - intros. now apply handleAPIError_no_response.
  - intros. now apply handleAPIError_response_body.
Qed.

(** [getRateByRoute] answers [{ message: "Invalid Route" }] without touching
    the state exactly when the instance has the member and the route has
    fewer than two entries: the capability check comes first, so on an
    instance without the member a short route is an assertion failure, and a
    longer route always reaches the sdk function. *)
Theorem getRateByRoute_invalid_route_iff (this : ParaSwap) route amount userAddress side
    options srcDecimals destDecimals (st : State) :
  getRateByRoute this route amount userAddress side options srcDecimals destDecimals st
  = (Normal (object [("message", JString "Invalid Route")]), st)
  <-> is_Some (sdk this !! "getRateByRoute") /\ (length route < 2)%nat.
Proof.
  change (getRateByRoute this route amount userAddress side options srcDecimals destDecimals st)
    with (perform this
            (GetRateByRoute route amount userAddress side options srcDecimals destDecimals) st).
  rewrite perform_forward. simpl.
  destruct (sdk this !! "getRateByRoute") as [m|]; split.
  - destruct (length route <? 2)%nat eqn:Hlen.
    + intros _. split; [eauto|]. now apply Nat.ltb_lt.
    + rewrite try_catch_await. intros H. injection H as _ H.
      apply (f_equal calls) in H. simpl in H. symmetry in H.
      now apply calls_grow_neq in H.
  - intros [_ Hlen]. apply Nat.ltb_lt in Hlen. now rewrite Hlen.
  - discriminate.
  - intros [[m Hm] _]. discriminate.
Qed.

(** The methods read nothing of the instance but its sdk object: two
    instances with the same sdk object behave alike under every operation,
    whatever network id, URL and provider fields they hold. *)
Theorem perform_depends_only_on_sdk (this this' : ParaSwap) req (st : State) :
  sdk this = sdk this' ->
  perform this req st = perform this' req st.
Proof. intros H. rewrite !perform_forward. now rewrite H. Qed.

Lemma perform_calls_added (this : ParaSwap) req (st : State) :
  exists added,
    calls (snd (perform this req st)) = (calls st ++ added)%list
    /\ length added = if delegates this req then 1%nat else 0%nat.
Proof.
  rewrite perform_forward. unfold delegates.
  destruct (sdk this !! capability req) as [m|]; [destruct (answers_locally req)|]; simpl.
  - exists []. now rewrite app_nil_r.
  - rewrite try_catch_await. simpl. eauto.
  - exists []. now rewrite app_nil_r.
Qed.

(** Over any sequence of operations awaited in turn, each one settling, the
    calls made before are kept in place and the calls added number exactly
    the operations that reach the sdk function: one each, none repeated,
    none made for an operation that failed its capability check or was
    answered by the route check. *)
Theorem perform_all_calls (this : ParaSwap) reqs (st : State) :
  exists added,
    calls (snd (perform_all this reqs st)) = (calls st ++ added)%list
    /\ length added = length (List.filter (delegates this) reqs).
Proof.
  revert st. induction reqs as [|req rest IH]; intros st.
  - simpl. exists []. now rewrite app_nil_r.
  - simpl. destruct (perform_calls_added this req st) as (added1 & Hcalls1 & Hlen1).
    destruct (perform this req st) as [r st']. simpl in Hcalls1.
    destruct (IH st') as (added & Hcalls & Hadded).
    destruct (perform_all this rest st') as [rs st'']. simpl in *.
    exists (added1 ++ added)%list. rewrite Hcalls, Hcalls1, <- app_assoc.
    split; [reflexivity|]. rewrite length_app, Hlen1, Hadded.
    now destruct (delegates this req).
Qed.

End Forwarding.

Lemma perform_type_error_origin_witness :
  fst (perform (client (Rejected null_body)) GetTokens start) = Throw TypeError
  /\ exists m e,
       sdk (client (Rejected null_body)) !! capability GetTokens = Some m
       /\ answers_locally GetTokens = false
       /\ fst (m (invocation GetTokens) (world start)) = Rejected e
       /\ ((isAxiosError e = false /\ ToString e = Throw TypeError)
           \/ (isAxiosError e = true
               /\ truthy (field e "response") = true
               /\ nullish (field (field e "response") "data") = true)).
Proof.
  assert (H : fst (perform (client (Rejected null_body)) GetTokens start) = Throw TypeError)
    by (vm_compute; reflexivity).
  split; [exact H|].
  exact (perform_type_error_origin (client (Rejected null_body)) GetTokens start H).
Defined.

(** The 400 of the specification's example, through [getTokens]. *)
Lemma perform_rejected_split_witness :
  let this := client (Rejected bad_request) in
  let m : Method (World := unit) := fun _ w => (Rejected bad_request, w) in
  sdk this !! capability GetTokens = Some m
  /\ answers_locally GetTokens = false
  /\ fst (m (invocation GetTokens) (world start)) = Rejected bad_request
  /\ isAxiosError bad_request = true
  /\ truthy (field bad_request "response") = true
  /\ nullish (field (field bad_request "response") "data") = false
  /\ fst (perform this GetTokens start)
     = Normal (object [("status", JInt 400); ("message", JString "bad request");
                       ("data", object [("error", JString "bad request")])]).
Proof.
  intros this m.
  assert (Hm : sdk this !! capability GetTokens = Some m) by (vm_compute; reflexivity).
  split; [exact Hm|]. do 5 (split; [reflexivity|]).
  exact (proj2 (proj2 (perform_rejected_split this GetTokens start m bad_request
                         Hm eq_refl eq_refl)) eq_refl eq_refl eq_refl).
Defined.

(** The public provider field reassigned after construction. *)
Lemma perform_depends_only_on_sdk_witness :
  let this := client (Resolved (JString "0xspender")) in
  let this' := {| network := network this; apiURL := apiURL this;
                  web3Provider := Some tt; ethersProvider := ethersProvider this;
                  sdk := sdk this |} in
  sdk this = sdk this'
  /\ perform this (ApproveToken "1" "0xuser" "0xtoken" None None) start
     = perform this' (ApproveToken "1" "0xuser" "0xtoken" None None) start.
Proof.
  intros this this'. split; [reflexivity|].
  exact (perform_depends_only_on_sdk this this' _ start eq_refl).
Defined.

(** A short route on an instance that was left without an sdk object. *)
Example getRateByRoute_short_route_no_member :
  getRateByRoute
    {| network := 1; apiURL := API_URL; web3Provider := @None unit;
       ethersProvider := @None unit; sdk := ∅ |}
    ["ETH"] "1000" None None None None None start
  = (Throw (AssertionError "sdk must be initialized with a fetcher"), start).
Proof. vm_compute. reflexivity. Qed.

(** ** More on construction *)

Section MoreConstruction.

Context {AxiosStatic Fetch Web3 BaseProvider World : Type}.
Context {constructors : @SDKConstructors AxiosStatic Fetch Web3 BaseProvider World}.

(** Construction succeeds exactly when a transport is supplied: the network
    id, the URL and the providers never make it fail, whatever the sdk
    constructors give. *)
Theorem constructor_succeeds_iff network apiURL web3Provider ethersProvider axios fetch :
  (exists this,
     constructor network apiURL web3Provider ethersProvider axios fetch = Normal this)
  <-> supplied axios || supplied fetch = true.
Proof.
  split.
  - intros [this H]. destruct axios, fetch; try reflexivity.
    rewrite constructor_no_fetcher in H. discriminate.
  - intros Hsup. destruct (supplied_resolved_fetcher _ _ Hsup) as [fetcher Hf].
    rewrite (constructor_built _ _ _ _ _ _ _ Hf). eauto.
Qed.

(** The instance keeps the network id and the URL it was given, 1 and
    [API_URL] when they were left out, and the two providers as given. *)
Theorem constructor_stores_arguments network' apiURL' web3Provider' ethersProvider' axios fetch
    this :
  constructor network' apiURL' web3Provider' ethersProvider' axios fetch = Normal this ->
  network this = default 1 network'
  /\ apiURL this = default API_URL apiURL'
  /\ web3Provider this = web3Provider'
  /\ ethersProvider this = ethersProvider'.
Proof.
  intros H. destruct (resolved_fetcher axios fetch) as [fetcher|] eqn:Hf.
  - rewrite (constructor_built _ _ _ _ _ _ _ Hf) in H. now injection H as <-.
  - destruct axios, fetch; discriminate.
Qed.

(** With an ethers provider supplied, the Web3 provider has no part in the
    sdk object: two constructions that differ only in the Web3 provider get
    the same one. *)
Theorem constructor_ethers_precedence network' apiURL' web3Provider1 web3Provider2
    ethersProvider' axios fetch this1 this2 :
  constructor network' apiURL' web3Provider1 (Some ethersProvider') axios fetch = Normal this1 ->
  constructor network' apiURL' web3Provider2 (Some ethersProvider') axios fetch = Normal this2 ->
  sdk this1 = sdk this2.
Proof.
  intros H1 H2. destruct (resolved_fetcher axios fetch) as [fetcher|] eqn:Hf.
  - rewrite (constructor_built _ _ _ _ _ _ _ Hf) in H1.
    rewrite (constructor_built _ _ _ _ _ _ _ Hf) in H2.
    injection H1 as <-. injection H2 as <-. reflexivity.
  - destruct axios, fetch; discriminate.
Qed.

End MoreConstruction.

Lemma constructor_stores_arguments_witness :
  constructor (constructors := modelled (settling (Resolved JNull)))
    (Some 137) None None (Some tt) None (Some tt)
  = Normal {| network := 137; apiURL := API_URL; web3Provider := None;
              ethersProvider := Some tt;
              sdk := modelled_constructSDK (settling (Resolved JNull))
                       {| ci_fetcher := constructFetchFetcher tt;
                          ci_contractCaller := Some (constructEthersContractCaller tt);
                          ci_apiURL := API_URL; ci_network := 137 |} |}
  /\ (137 = default 1 (Some 137) /\ API_URL = default API_URL None
      /\ @None unit = None /\ Some tt = Some tt).
Proof.
  split; [reflexivity|].
  exact (constructor_stores_arguments (constructors := modelled (settling (Resolved JNull)))
           (Some 137) None None (Some tt) None (Some tt) _ eq_refl).
Defined.

Lemma constructor_ethers_precedence_witness :
  let built (w : option unit) :=
    {| network := 1; apiURL := API_URL; web3Provider := w; ethersProvider := Some tt;
       sdk := modelled_constructSDK (settling (Resolved JNull))
                {| ci_fetcher := constructAxiosFetcher tt;
                   ci_contractCaller := Some (constructEthersContractCaller tt);
                   ci_apiURL := API_URL; ci_network := 1 |} |} in
  constructor (constructors := modelled (settling (Resolved JNull)))
    None None (Some tt) (Some tt) (Some tt) None = Normal (built (Some tt))
  /\ constructor (constructors := modelled (settling (Resolved JNull)))
       None None None (Some tt) (Some tt) None = Normal (built None)
  /\ sdk (built (Some tt)) = sdk (built None).
Proof.
  intros built. split; [reflexivity|]. split; [reflexivity|].
  exact (constructor_ethers_precedence (constructors := modelled (settling (Resolved JNull)))
           None None (Some tt) None tt (Some tt) None _ _ eq_refl eq_refl).
Defined.
